(** * InversifyNodeBE: dependency wiring and route layer

    A shallow embedding of the warrior API: the interfaces and entities,
    the two controllers, the lazily initialised [DIContainer], the request
    dispatch of the web framework and the entry point of [index.ts].

    JavaScript calls may return or throw, and they run against the mutable
    state of the process; both are explicit here: a computation is a
    function from a state to a completion and a new state.

    Sources: [controllers/warrior.controller.ts] (WarriorController and,
    after it, InitController), [container/DIContainer.ts] (DIContainer
    and, after it, the entry point), [app.ts], and the README for
    [types.ts], the interfaces and Ninja. The container, the web
    framework and the event loop are those of inversify,
    inversify-express-utils and Node, as far as the program uses them. *)

From stdpp Require Import gmap strings list fin_maps pretty.

Local Open Scope string_scope.

(** ** Completions and the state-and-exception monad *)

Inductive completion (A : Type) : Type :=
| Normal (a : A)
| Throw (e : string).
Arguments Normal {A} a.
Arguments Throw {A} e.

Definition M (S A : Type) : Type := S -> completion A * S.

Definition ret {S A : Type} (a : A) : M S A := fun s => (Normal a, s).

Definition raise {S A : Type} (e : string) : M S A := fun s => (Throw e, s).

Definition bind {S A B : Type} (m : M S A) (k : A -> M S B) : M S B :=
  fun s =>
    match m s with
    | (Normal a, s') => k a s'
    | (Throw e, s') => (Throw e, s')
    end.

(** [try { m } catch (error) { h error }] *)
Definition try_catch {S A : Type} (m : M S A) (h : string -> M S A) : M S A :=
  fun s =>
    match m s with
    | (Normal a, s') => (Normal a, s')
    | (Throw e, s') => h e s'
    end.

Declare Scope js_scope.
Delimit Scope js_scope with js.
Notation "x <- m ;; k" := (bind m (fun x => k))
  (at level 100, m at next level, right associativity) : js_scope.
Notation "m ;;; k" := (bind m (fun _ => k))
  (at level 100, right associativity) : js_scope.
Local Open Scope js_scope.

Fixpoint mapM {S A B : Type} (f : A -> M S B) (l : list A) : M S (list B) :=
  match l with
  | [] => ret []
  | a :: r => b <- f a ;; bs <- mapM f r ;; ret (b :: bs)
  end.

(** ** types.ts: the injection tokens

    [Symbol.for(key)] returns the one symbol registered under [key] in the
    global symbol registry, so a token is determined by its key. *)

Module TYPES.
Definition Warrior : string := "Warrior".
Definition Weapon : string := "Weapon".
Definition ThrowableWeapon : string := "ThrowableWeapon".
Definition WarriorController : string := "WarriorController".
End TYPES.

(** ** interfaces: a capability is a record of its methods

    The methods take no argument; each is a computation over the state [S]
    of whatever process the implementation lives in. *)

Module Interfaces.
Section Capabilities.
Context {S : Type}.

Record Warrior : Type := { fight : M S string; sneak : M S string }.
Record Weapon : Type := { hit : M S string }.
Record ThrowableWeapon : Type := { throw : M S string }.
End Capabilities.
Arguments Warrior S : clear implicits.
Arguments Weapon S : clear implicits.
Arguments ThrowableWeapon S : clear implicits.
End Interfaces.

(** ** entities *)

Module Ninja.
Section Ninja.
Context {S : Type}.

(** The two injected properties. *)
Record t : Type :=
  { _katana : Interfaces.Weapon S; _shuriken : Interfaces.ThrowableWeapon S }.

Definition fight (this : t) : M S string := Interfaces.hit (_katana this).
Definition sneak (this : t) : M S string := Interfaces.throw (_shuriken this).

(** [class Ninja implements Warrior] *)
Definition as_Warrior (this : t) : Interfaces.Warrior S :=
  {| Interfaces.fight := fight this; Interfaces.sneak := sneak this |}.
End Ninja.
Arguments t S : clear implicits.
End Ninja.

Module Katana.
(** Modelled from the spec: the entities file is not among the sources;
    Katana is a zero-state Weapon whose [hit()] returns the fixed string
    "cut!". *)
Definition hit {S : Type} : M S string := ret "cut!".
Definition as_Weapon {S : Type} : Interfaces.Weapon S :=
  {| Interfaces.hit := hit |}.
End Katana.

Module Shuriken.
(** Modelled from the spec: the entities file is not among the sources;
    Shuriken is a zero-state ThrowableWeapon whose [throw()] returns the
    fixed string "hit!". *)
Definition throw {S : Type} : M S string := ret "hit!".
Definition as_ThrowableWeapon {S : Type} : Interfaces.ThrowableWeapon S :=
  {| Interfaces.throw := throw |}.
End Shuriken.

(** ** controllers *)

Module WarriorController.
Section WarriorController.
Context {S : Type}.

(** [constructor(@inject(TYPES.Warrior) private warrior: Warrior)] *)
Record t : Type := { warrior : Interfaces.Warrior S }.

Definition fight (this : t) : M S string := Interfaces.fight (warrior this).
Definition sneak (this : t) : M S string := Interfaces.sneak (warrior this).
End WarriorController.
Arguments t S : clear implicits.
End WarriorController.

Module InitController.
Definition fight {S : Type} : M S string :=
  ret "base route. Hello World Fellas".
End InitController.

(** ** The process: heap, static field, console, exit status *)

(** The classes of the objects a container hands out: the five classes of
    the program, and Object for a plain object literal. *)
Inductive Newable : Type :=
| NinjaClass
| KatanaClass
| ShurikenClass
| WarriorControllerClass
| InitControllerClass
| ObjectClass.

Definition Newable_eqb (k1 k2 : Newable) : bool :=
  match k1, k2 with
  | NinjaClass, NinjaClass
  | KatanaClass, KatanaClass
  | ShurikenClass, ShurikenClass
  | WarriorControllerClass, WarriorControllerClass
  | InitControllerClass, InitControllerClass
  | ObjectClass, ObjectClass => true
  | _, _ => false
  end.

(** An object built by the container: its address (its identity under
    [===]), its class, and the objects injected into it. *)
#[local] Set Warnings "-register-all".
Inductive Obj : Type :=
| Instance (addr : nat) (constr : Newable) (injected : list Obj).

Definition addr_of (o : Obj) : nat := match o with Instance a _ _ => a end.
Definition class_of (o : Obj) : Newable := match o with Instance _ k _ => k end.

(** inversify's binding scopes, as far as this program can meet them: a
    binding made by [bind(id).to(C)] takes the default scope of its
    container, and [new Container()] without options has default scope
    Transient; [inSingletonScope()] is never called. *)
Inductive BindingScope : Type := Transient | Singleton.

Record Binding : Type := {
  serviceIdentifier : string;
  implementationType : Newable;
  scope : BindingScope;
  cache : option Obj
}.

Record Container : Type := {
  defaultScope : BindingScope;
  bindingDictionary : gmap string (list Binding)
}.

Record Process : Type := {
  heap : gmap nat Container;          (* the containers, by address *)
  fresh : nat;                        (* next unused address *)
  DIContainer_container : option nat; (* private static container *)
  registerCalls : nat;                (* ghost: runs of registerDependencies *)
  stdout : list string;
  stderr : list string;
  exitCode : option nat
}.

Definition init : Process :=
  {| heap := ∅; fresh := 0; DIContainer_container := None; registerCalls := 0;
     stdout := []; stderr := []; exitCode := None |}.

Definition set_heap (h : gmap nat Container) (p : Process) : Process :=
  {| heap := h; fresh := fresh p;
     DIContainer_container := DIContainer_container p;
     registerCalls := registerCalls p;
     stdout := stdout p; stderr := stderr p; exitCode := exitCode p |}.

Definition set_fresh (n : nat) (p : Process) : Process :=
  {| heap := heap p; fresh := n;
     DIContainer_container := DIContainer_container p;
     registerCalls := registerCalls p;
     stdout := stdout p; stderr := stderr p; exitCode := exitCode p |}.

Definition set_DIContainer_container (c : option nat) (p : Process) : Process :=
  {| heap := heap p; fresh := fresh p;
     DIContainer_container := c;
     registerCalls := registerCalls p;
     stdout := stdout p; stderr := stderr p; exitCode := exitCode p |}.

Definition set_registerCalls (n : nat) (p : Process) : Process :=
  {| heap := heap p; fresh := fresh p;
     DIContainer_container := DIContainer_container p;
     registerCalls := n;
     stdout := stdout p; stderr := stderr p; exitCode := exitCode p |}.

Definition set_stdout (l : list string) (p : Process) : Process :=
  {| heap := heap p; fresh := fresh p;
     DIContainer_container := DIContainer_container p;
     registerCalls := registerCalls p;
     stdout := l; stderr := stderr p; exitCode := exitCode p |}.

Definition set_stderr (l : list string) (p : Process) : Process :=
  {| heap := heap p; fresh := fresh p;
     DIContainer_container := DIContainer_container p;
     registerCalls := registerCalls p;
     stdout := stdout p; stderr := l; exitCode := exitCode p |}.

Definition set_exitCode (c : option nat) (p : Process) : Process :=
  {| heap := heap p; fresh := fresh p;
     DIContainer_container := DIContainer_container p;
     registerCalls := registerCalls p;
     stdout := stdout p; stderr := stderr p; exitCode := c |}.

(** A fresh address. *)
Definition alloc : M Process nat :=
  fun p => (Normal (fresh p), set_fresh (S (fresh p)) p).

(** ** The inversify container

    The part of the library that the program calls: [new Container()],
    [bind(id).to(C)] and [get(id)]. *)

Module Inversify.

Definition TypeError (msg : string) : string := "TypeError: " +:+ msg.

(** Reading the container behind a handle. *)
Definition deref (c : nat) : M Process Container :=
  fun p =>
    match heap p !! c with
    | Some ct => (Normal ct, p)
    | None => (Throw (TypeError "not a Container"), p)
    end.

Definition store (c : nat) (ct : Container) : M Process unit :=
  fun p => (Normal tt, set_heap (<[c := ct]> (heap p)) p).

(** [new Container()] *)
Definition new_Container : M Process nat :=
  c <- alloc ;;
  store c {| defaultScope := Transient; bindingDictionary := ∅ |} ;;;
  ret c.

Definition bindings_for (ct : Container) (id : string) : list Binding :=
  default [] (bindingDictionary ct !! id).

(** [c.bind(id).to(cls)]: one more binding under [id]; an identifier may
    collect several and only [get] objects to that. *)
Definition bind_to (c : nat) (id : string) (cls : Newable) : M Process unit :=
  ct <- deref c ;;
  let b := {| serviceIdentifier := id; implementationType := cls;
              scope := defaultScope ct; cache := None |} in
  store c {| defaultScope := defaultScope ct;
             bindingDictionary :=
               <[id := (bindings_for ct id ++ [b])%list]> (bindingDictionary ct) |}.

(** What the decorators of a class ask the container to inject:
    Ninja's two [@inject] properties and WarriorController's [@inject]
    constructor parameter. Katana and Shuriken are zero-state,
    InitController's constructor takes nothing, and neither does a plain
    object. *)
Definition injections (cls : Newable) : list string :=
  match cls with
  | NinjaClass => [TYPES.Weapon; TYPES.ThrowableWeapon]
  | WarriorControllerClass => [TYPES.Warrior]
  | KatanaClass | ShurikenClass | InitControllerClass | ObjectClass => []
  end.

Definition set_cache (o : Obj) (b : Binding) : Binding :=
  {| serviceIdentifier := serviceIdentifier b;
     implementationType := implementationType b;
     scope := scope b; cache := Some o |}.

(** Remember the instance of a singleton binding. *)
Definition activate (c : nat) (id : string) (b : Binding) (o : Obj) : M Process unit :=
  match scope b with
  | Transient => ret tt
  | Singleton =>
      ct <- deref c ;;
      store c {| defaultScope := defaultScope ct;
                 bindingDictionary :=
                   <[id := [set_cache o b]]> (bindingDictionary ct) |}
  end.

(** Resolution of [id] along a dependency chain of at most [depth]
    links. *)
Fixpoint resolve (depth : nat) (c : nat) (id : string) : M Process Obj :=
  match depth with
  | 0 => raise "Circular dependency found"
  | S depth' =>
      ct <- deref c ;;
      match bindings_for ct id with
      | [] => raise "No matching bindings found for serviceIdentifier"
      | [b] =>
          match scope b, cache b with
          | Singleton, Some o => ret o
          | _, _ =>
              deps <- mapM (resolve depth' c) (injections (implementationType b)) ;;
              a <- alloc ;;
              let o := Instance a (implementationType b) deps in
              activate c id b o ;;;
              ret o
          end
      | _ :: _ :: _ => raise "Ambiguous match found for serviceIdentifier"
      end
  end.

(** [c.get(id)]. A chain that repeats no identifier is no longer than
    the number of bound identifiers, so a longer one is circular. *)
Definition get (c : nat) (id : string) : M Process Obj :=
  ct <- deref c ;;
  resolve (S (size (bindingDictionary ct))) c id.

(** Construction of a class that is not looked up by identifier, with
    its injections resolved from [c]: how the web framework obtains the
    controller of a request. *)
Definition instantiate (c : nat) (cls : Newable) : M Process Obj :=
  deps <- mapM (get c) (injections cls) ;;
  a <- alloc ;;
  ret (Instance a cls deps).

(** [c.bind(id).toConstantValue(v)]: one more binding under [id], in
    singleton scope and with [v] already in its cache, so that it is
    never constructed. *)
Definition bind_constant (c : nat) (id : string) (v : Obj) : M Process unit :=
  ct <- deref c ;;
  let b := {| serviceIdentifier := id; implementationType := class_of v;
              scope := Singleton; cache := Some v |} in
  store c {| defaultScope := defaultScope ct;
             bindingDictionary :=
               <[id := (bindings_for ct id ++ [b])%list]> (bindingDictionary ct) |}.

(** [c.bind(id).to(cls).whenTargetNamed(cls.name)] and
    [c.isBoundNamed(id, cls.name)]: the name is the name of the class, so
    the binding of that name under [id] is the one to that class. The
    name itself is not kept: a [get] without a name, which in inversify
    finds no match among named bindings, here meets all of them; in both
    cases it throws and resolves nothing. *)
Definition bind_to_named (c : nat) (id : string) (cls : Newable) : M Process unit :=
  bind_to c id cls.

Definition isBoundNamed (c : nat) (id : string) (cls : Newable) : M Process bool :=
  ct <- deref c ;;
  ret (existsb (fun b => Newable_eqb (implementationType b) cls) (bindings_for ct id)).

(** Remember the instance of the [i]-th binding under [id], when that
    binding is a singleton. *)
Definition activate_at (c : nat) (id : string) (i : nat) (b : Binding) (o : Obj)
  : M Process unit :=
  match scope b with
  | Transient => ret tt
  | Singleton =>
      ct <- deref c ;;
      store c {| defaultScope := defaultScope ct;
                 bindingDictionary :=
                   <[id := alter (set_cache o) i (bindings_for ct id)]>
                     (bindingDictionary ct) |}
  end.

(** [c.getAll(id)]: every binding under [id] is resolved, whatever its
    name. *)
Definition getAll (c : nat) (id : string) : M Process (list Obj) :=
  ct <- deref c ;;
  match bindings_for ct id with
  | [] => raise "No matching bindings found for serviceIdentifier"
  | bs =>
      mapM (fun ib : nat * Binding =>
              let (i, b) := ib in
              match scope b, cache b with
              | Singleton, Some o => ret o
              | _, _ =>
                  deps <- mapM (get c) (injections (implementationType b)) ;;
                  a <- alloc ;;
                  let o := Instance a (implementationType b) deps in
                  activate_at c id i b o ;;;
                  ret o
              end)
           (zip (seq 0 (length bs)) bs)
  end.

End Inversify.

(** ** Method calls on objects built by the container

    A field typed by an interface holds whatever object was injected; a
    call on it runs the method of that object's class, and fails with a
    TypeError when the class has no such method. *)

Module Dispatch.

Definition not_a_function {A : Type} (name : string) : M Process A :=
  raise (Inversify.TypeError (name +:+ " is not a function")).

Definition as_Weapon (o : Obj) : Interfaces.Weapon Process :=
  match class_of o with
  | KatanaClass => Katana.as_Weapon
  | _ => {| Interfaces.hit := not_a_function "hit" |}
  end.

Definition as_ThrowableWeapon (o : Obj) : Interfaces.ThrowableWeapon Process :=
  match class_of o with
  | ShurikenClass => Shuriken.as_ThrowableWeapon
  | _ => {| Interfaces.throw := not_a_function "throw" |}
  end.

Definition as_Warrior (o : Obj) : Interfaces.Warrior Process :=
  match o with
  | Instance _ NinjaClass [k; s] =>
      Ninja.as_Warrior {| Ninja._katana := as_Weapon k;
                          Ninja._shuriken := as_ThrowableWeapon s |}
  | _ => {| Interfaces.fight := not_a_function "fight";
            Interfaces.sneak := not_a_function "sneak" |}
  end.

(** [controller[key]()] *)
Definition invoke (o : Obj) (key : string) : M Process string :=
  match o with
  | Instance _ WarriorControllerClass [w] =>
      let this := {| WarriorController.warrior := as_Warrior w |} in
      if decide (key = "fight") then WarriorController.fight this
      else if decide (key = "sneak") then WarriorController.sneak this
      else not_a_function key
  | Instance _ InitControllerClass _ =>
      if decide (key = "fight") then InitController.fight
      else not_a_function key
  | _ => not_a_function key
  end.

End Dispatch.

(** ** container/DIContainer.ts *)

Module DIContainer.

(** [this.container], used as a Container. *)
Definition this_container : M Process nat :=
  fun p =>
    match DIContainer_container p with
    | Some c => (Normal c, p)
    | None => (Throw (Inversify.TypeError "this.container is undefined"), p)
    end.

Definition assign_container (c : nat) : M Process unit :=
  fun p => (Normal tt, set_DIContainer_container (Some c) p).

(** Ghost step: one more run of [registerDependencies]. *)
Definition count_register_call : M Process unit :=
  fun p => (Normal tt, set_registerCalls (S (registerCalls p)) p).

Definition registerDependencies : M Process unit :=
  count_register_call ;;;
  c <- this_container ;; Inversify.bind_to c TYPES.Warrior NinjaClass ;;;
  c <- this_container ;; Inversify.bind_to c TYPES.Weapon KatanaClass ;;;
  c <- this_container ;; Inversify.bind_to c TYPES.ThrowableWeapon ShurikenClass ;;;
  c <- this_container ;;
  Inversify.bind_to c TYPES.WarriorController WarriorControllerClass.

(** [if (!this.container) { ... } return this.container;] The result is
    typed as a Container; that the field is set when it is returned is
    proved below, not assumed. *)
Definition resolveDependencies : M Process nat :=
  fun p =>
    (match DIContainer_container p with
     | None =>
         c <- Inversify.new_Container ;;
         assign_container c ;;;
         registerDependencies
     | Some _ => ret tt
     end ;;;
     this_container) p.

End DIContainer.

(** ** The route layer as the web framework runs it *)

Record Request : Type := { method : string; url : string }.
Record Response : Type := { status : nat; body : string }.

Record Route : Type := {
  route_method : string;
  route_path : string;
  target : Newable;
  key : string
}.

(** [@controller(prefix)] on the class and [@httpGet(path)] on the method
    register a GET route at [prefix] followed by [path]. *)
Definition httpGet (prefix : string) (cls : Newable) (path : string) (key : string) : Route :=
  {| route_method := "GET"; route_path := prefix +:+ path;
     target := cls; key := key |}.

Definition routes : list Route :=
  [ httpGet "/warrior" WarriorControllerClass "/fight" "fight";
    httpGet "/warrior" WarriorControllerClass "/sneak" "sneak";
    httpGet "/" InitControllerClass EmptyString "fight" ].

Definition route_matches (req : Request) (r : Route) : bool :=
  bool_decide (route_method r = method req) && bool_decide (route_path r = url req).

(** One request: the matching route's controller is constructed from the
    container, its method is called, and a string result is sent as it is
    ([res.send(value)], status 200). An exception goes to the default
    error handler (500); no route, 404. *)
Definition handle (c : nat) (req : Request) : M Process Response :=
  match find (route_matches req) routes with
  | None =>
      ret {| status := 404;
             body := "Cannot " +:+ method req +:+ " " +:+ url req |}
  | Some r =>
      try_catch
        (controller <- Inversify.instantiate c (target r) ;;
         value <- Dispatch.invoke controller (key r) ;;
         ret {| status := 200; body := value |})
        (fun e => ret {| status := 500; body := e |})
  end.

(** [JSON.stringify({ action: s })] for a string [s] without characters
    to escape. *)
Definition dquote : string := String (Ascii.ascii_of_nat 34) EmptyString.

Definition json_action (s : string) : string :=
  "{" +:+ dquote +:+ "action" +:+ dquote +:+ ":" +:+ dquote +:+ s +:+ dquote +:+ "}".

(** ** app.ts and index.ts *)

Definition console_log (msg : string) : M Process unit :=
  fun p => (Normal tt, set_stdout (stdout p ++ [msg])%list p).

Definition console_error (msg : string) : M Process unit :=
  fun p => (Normal tt, set_stderr (stderr p ++ [msg])%list p).

(** [process.exit(code)] does not return: the exit code is recorded and
    what would follow is abandoned. Nothing in this program is in a
    position to catch it. *)
Definition process_exit (code : nat) : M Process unit :=
  fun p => (Throw "process.exit", set_exitCode (Some code) p).

Section Startup.
(** The platform: what [server.build()] of the web framework and
    [app.listen(port, callback)] do, including whether they throw and
    whether and when the callback runs. *)
Variable Application : Type.
Variable build : nat -> M Process Application.
Variable listen : Application -> nat -> M Process unit -> M Process unit.

Definition createApp : M Process Application :=
  container <- DIContainer.resolveDependencies ;;
  build container.

Definition PORT : nat := 3000.

(** The callback given to [listen]. *)
Definition announce : M Process unit :=
  console_log ("Server is running on http://localhost:" +:+ pretty PORT).

Definition main : M Process unit :=
  try_catch
    (app <- createApp ;;
     listen app PORT announce)
    (fun error =>
       console_error ("Error starting server: " +:+ error) ;;;
       process_exit 1).

(** Startup throws [e], leaving the process in [p']: in [createApp], or in
    [listen] after [createApp] has returned. *)
Definition startup_throws (p : Process) (e : string) (p' : Process) : Prop :=
  createApp p = (Throw e, p') \/
  exists app p1,
    createApp p = (Normal app, p1) /\ listen app PORT announce p1 = (Throw e, p').
End Startup.
Arguments createApp {Application} build.
Arguments main {Application} build listen.
Arguments startup_throws {Application} build listen p e p'.

(** ** The entry point on the event loop

    [app.listen(port, callback)] creates the server, registers the
    callback for its 'listening' event and asks for the port; it returns
    (or throws, on arguments it refuses) before the port is bound. What
    became of the bind is reported afterwards, outside the [try] block of
    the entry point: 'listening', and the callback runs; or 'error', for
    which the program registers no listener. *)

Inductive ListenEvent : Type :=
| Listening
| ListenError (e : string).

(** An 'error' event without a listener is thrown in the event loop, where
    nothing catches it: Node reports it on the standard error (the report
    is reduced to the error itself) and ends the process with exit
    code 1. *)
Definition uncaught_exception (e : string) (p : Process) : Process :=
  set_exitCode (Some 1) (set_stderr (stderr p ++ [e])%list p).

Section EventLoop.
Variable Application : Type.
Variable build : nat -> M Process Application.
(** The part of [app.listen] that runs at once. *)
Variable listen_call : Application -> nat -> M Process unit.

Definition app_listen (app : Application) (port : nat) (callback : M Process unit)
  : M Process unit :=
  listen_call app port.

(** The process from start to the report on the bind: the entry point,
    and, unless it has left through [process.exit], the event. The
    callback that runs on 'listening' is the one the entry point gave to
    [listen]. *)
Definition start (event : ListenEvent) (p : Process) : Process :=
  match main build app_listen p with
  | (Throw _, p1) => p1
  | (Normal _, p1) =>
      match event with
      | Listening => snd (announce p1)
      | ListenError e => uncaught_exception e p1
      end
  end.
End EventLoop.
Arguments app_listen {Application} listen_call app port callback.
Arguments start {Application} build listen_call event p.

(** ** The web framework's [server.build()]

    The part of it that touches the container: a placeholder HttpContext
    is bound as a constant, every decorated controller is bound under the
    Controller identifier by its name, unless that name is bound already,
    and the controllers are resolved once to register their routes. The
    list of decorated controllers has the last decorated class first. *)

Module InversifyExpressServer.

Module TYPE.
Definition Controller : string := "Controller".
Definition HttpContext : string := "HttpContext".
End TYPE.

Definition controllers : list Newable :=
  [InitControllerClass; WarriorControllerClass].

Definition registerControllers (c : nat) : M Process unit :=
  a <- alloc ;;
  Inversify.bind_constant c TYPE.HttpContext (Instance a ObjectClass []) ;;;
  mapM (fun cls =>
          taken <- Inversify.isBoundNamed c TYPE.Controller cls ;;
          if (taken : bool)
          then raise "Two controllers cannot have the same name"
          else Inversify.bind_to_named c TYPE.Controller cls)
       controllers ;;;
  Inversify.getAll c TYPE.Controller ;;;
  ret tt.

(** The app it returns dispatches on the container it was built on. *)
Definition build (c : nat) : M Process nat :=
  registerControllers c ;;;
  ret c.

End InversifyExpressServer.

(** ** What a started process can do next *)

Inductive op : Type :=
| Resolve                 (* DIContainer.resolveDependencies() *)
| Get (id : string)       (* get(id) on the handle it returned *)
| Serve (req : Request).  (* one HTTP request *)

(** The handle in use is the one [resolveDependencies] has returned; before
    its first call no handle exists and nothing can be asked of it. *)
Definition exec (o : op) (p : Process) : Process :=
  match o with
  | Resolve => snd (DIContainer.resolveDependencies p)
  | Get id =>
      match DIContainer_container p with
      | Some c => snd (Inversify.get c id p)
      | None => p
      end
  | Serve req =>
      match DIContainer_container p with
      | Some c => snd (handle c req p)
      | None => p
      end
  end.

Definition run (ops : list op) (p : Process) : Process :=
  fold_left (fun q o => exec o q) ops p.

(** The bindings a process holds under an identifier, in the static
    container; none while it is unset. *)
Definition bound (p : Process) (id : string) : list Binding :=
  match DIContainer_container p with
  | Some c =>
      match heap p !! c with
      | Some ct => Inversify.bindings_for ct id
      | None => []
      end
  | None => []
  end.

(** What the process answers to a request once a handle exists. *)
Definition answer (req : Request) (p : Process) : option (completion Response) :=
  match DIContainer_container p with
  | Some c => Some (fst (handle c req p))
  | None => None
  end.

Definition GET (path : string) : Request := {| method := "GET"; url := path |}.

(** ** The registry that [registerDependencies] builds *)

Definition transient (id : string) (cls : Newable) : Binding :=
  {| serviceIdentifier := id; implementationType := cls;
     scope := Transient; cache := None |}.

Definition registry : gmap string (list Binding) :=
  <[TYPES.WarriorController := [transient TYPES.WarriorController WarriorControllerClass]]>
  (<[TYPES.ThrowableWeapon := [transient TYPES.ThrowableWeapon ShurikenClass]]>
  (<[TYPES.Weapon := [transient TYPES.Weapon KatanaClass]]>
  (<[TYPES.Warrior := [transient TYPES.Warrior NinjaClass]]> ∅))).

Definition registered : Container :=
  {| defaultScope := Transient; bindingDictionary := registry |}.

(** The process right after the first [resolveDependencies()], which
    [createApp] makes at startup. *)
Definition started : Process := snd (DIContainer.resolveDependencies init).

(** The process when [createApp] has returned: after the first
    [resolveDependencies()] and the framework's [build] on its handle. *)
Definition built : Process := snd (createApp InversifyExpressServer.build init).

Definition built_container : Container := default registered (heap built !! 0).

(** The three capabilities, their tokens and their implementations. *)
Inductive Capability : Type := WarriorCap | WeaponCap | ThrowableWeaponCap.

Definition token (cap : Capability) : string :=
  match cap with
  | WarriorCap => TYPES.Warrior
  | WeaponCap => TYPES.Weapon
  | ThrowableWeaponCap => TYPES.ThrowableWeapon
  end.

Definition implementation (cap : Capability) : Newable :=
  match cap with
  | WarriorCap => NinjaClass
  | WeaponCap => KatanaClass
  | ThrowableWeaponCap => ShurikenClass
  end.

(** The four bindings of [registerDependencies], each alone under its
    token. *)
Definition DIContainer_bindings (p : Process) : Prop :=
  bound p TYPES.Warrior = [transient TYPES.Warrior NinjaClass] /\
  bound p TYPES.Weapon = [transient TYPES.Weapon KatanaClass] /\
  bound p TYPES.ThrowableWeapon = [transient TYPES.ThrowableWeapon ShurikenClass] /\
  bound p TYPES.WarriorController =
    [transient TYPES.WarriorController WarriorControllerClass].

(** A computation that, run in a started process, moves nothing but the
    allocation counter. *)
Definition frame {A : Type} (m : M Process A) : Prop :=
  forall n, exists n', n <= n' /\ snd (m (set_fresh n started)) = set_fresh n' started.

(** The same from any base state [b]. *)
Definition frame_on (b : Process) {A : Type} (m : M Process A) : Prop :=
  forall n, exists n', n <= n' /\ snd (m (set_fresh n b)) = set_fresh n' b.

(** A container in which [get] has nothing to remember: an identifier
    with a single binding has it transient, or already cached. *)
Definition settled (ct : Container) : Prop :=
  forall id,
    match Inversify.bindings_for ct id with
    | [b] => scope b = Transient \/ is_Some (cache b)
    | _ => True
    end.

(** * Properties *)

(** ** The monad *)

Lemma bind_ret_l {S A B : Type} (a : A) (k : A -> M S B) (s : S) :
  bind (ret a) k s = k a s.
Proof. reflexivity. Qed.

Lemma bind_raise {S A B : Type} (e : string) (k : A -> M S B) (s : S) :
  bind (raise e) k s = (Throw e, s).
Proof. reflexivity. Qed.

Lemma try_catch_raise {S A : Type} (e : string) (h : string -> M S A) (s : S) :
  try_catch (raise e) h s = h e s.
Proof. reflexivity. Qed.

(** ** The first resolution *)

Ltac run_js :=
  cbv beta iota zeta delta
    [bind ret raise try_catch alloc mapM
     Inversify.deref Inversify.store Inversify.new_Container Inversify.bind_to
     DIContainer.resolveDependencies DIContainer.registerDependencies
     DIContainer.this_container DIContainer.assign_container
     DIContainer.count_register_call
     heap fresh DIContainer_container registerCalls stdout stderr exitCode
     set_heap set_fresh set_DIContainer_container set_registerCalls
     set_stdout set_stderr set_exitCode fst snd].

Lemma resolveDependencies_first p :
  DIContainer_container p = None ->
  DIContainer.resolveDependencies p =
    (Normal (fresh p),
     set_registerCalls (S (registerCalls p))
       (set_DIContainer_container (Some (fresh p))
          (set_heap (<[fresh p := registered]> (heap p))
             (set_fresh (S (fresh p)) p)))).
Proof.
  destruct p as [h f sc rc out err ec]. simpl. intros ->.
  run_js.
  repeat (rewrite lookup_insert_eq; run_js).
  rewrite !insert_insert_eq.
  do 3 f_equal.
Qed.

Lemma resolveDependencies_again p c :
  DIContainer_container p = Some c ->
  DIContainer.resolveDependencies p = (Normal c, p).
Proof.
  intros H. unfold DIContainer.resolveDependencies, DIContainer.this_container.
  rewrite H. cbv [bind ret]. now rewrite H.
Qed.

Lemma deref_Some c ct p :
  heap p !! c = Some ct -> Inversify.deref c p = (Normal ct, p).
Proof. intros H. unfold Inversify.deref. now rewrite H. Qed.

Lemma registry_cases id :
  Inversify.bindings_for registered id = [] \/
  exists cls, Inversify.bindings_for registered id = [transient id cls].
Proof.
  unfold Inversify.bindings_for, registered, registry; cbn [bindingDictionary].
  repeat (rewrite lookup_insert; case_decide;
          [subst id; right; eexists; reflexivity|]).
  rewrite lookup_empty. now left.
Qed.

(** ** Resolution and request handling only allocate *)

Create HintDb frame.

Section Frame.
(** A base state whose static container is settled. *)
Variable b : Process.
Variable ct : Container.
Hypothesis b_static : DIContainer_container b = Some 0.
Hypothesis b_heap : heap b !! 0 = Some ct.
Hypothesis b_settled : settled ct.

Lemma frame_on_ret {A : Type} (a : A) : frame_on b (ret a).
Proof. intros n. exists n. split; [lia | reflexivity]. Qed.

Lemma frame_on_raise {A : Type} (e : string) : frame_on b (raise e : M Process A).
Proof. intros n. exists n. split; [lia | reflexivity]. Qed.

Lemma frame_on_alloc : frame_on b alloc.
Proof. intros n. exists (S n). split; [lia | reflexivity]. Qed.

Lemma frame_on_bind {A B : Type} (m : M Process A) (k : A -> M Process B) :
  frame_on b m -> (forall a, frame_on b (k a)) -> frame_on b (bind m k).
Proof.
  intros Hm Hk n. destruct (Hm n) as (n1 & Hle & E). unfold bind.
  destruct (m (set_fresh n b)) as [[a|e] q]; cbn [snd] in E; subst q.
  - destruct (Hk a n1) as (n2 & Hle2 & E2). exists n2. split; [lia | exact E2].
  - exists n1. split; [lia | reflexivity].
Qed.

Lemma frame_on_try_catch {A : Type} (m : M Process A) (h : string -> M Process A) :
  frame_on b m -> (forall e, frame_on b (h e)) -> frame_on b (try_catch m h).
Proof.
  intros Hm Hh n. destruct (Hm n) as (n1 & Hle & E). unfold try_catch.
  destruct (m (set_fresh n b)) as [[a|e] q]; cbn [snd] in E; subst q.
  - exists n1. split; [lia | reflexivity].
  - destruct (Hh e n1) as (n2 & Hle2 & E2). exists n2. split; [lia | exact E2].
Qed.

Lemma frame_on_mapM {A B : Type} (f : A -> M Process B) (l : list A) :
  (forall a, frame_on b (f a)) -> frame_on b (mapM f l).
Proof.
  intros Hf. induction l as [|a l IH]; cbn [mapM].
  - apply frame_on_ret.
  - apply frame_on_bind; [apply Hf|]. intros x.
    apply frame_on_bind; [exact IH|]. intros xs. apply frame_on_ret.
Qed.

#[local] Hint Resolve frame_on_ret frame_on_raise frame_on_alloc frame_on_bind
  frame_on_try_catch frame_on_mapM : frame.

Lemma deref_base n : Inversify.deref 0 (set_fresh n b) = (Normal ct, set_fresh n b).
Proof. apply deref_Some. exact b_heap. Qed.

Lemma frame_on_resolve depth id : frame_on b (Inversify.resolve depth 0 id).
Proof.
  revert id. induction depth as [|depth IH]; intros id.
  - apply frame_on_raise.
  - intros n. cbn [Inversify.resolve]. unfold bind at 1. rewrite deref_base.
    pose proof (b_settled id) as Hs.
    destruct (Inversify.bindings_for ct id) as [|x [|y l]].
    + apply frame_on_raise.
    + revert n. destruct x as [sid cls [|] ca]; cbn [scope cache implementationType] in *.
      * cbn [Inversify.activate scope].
        assert (H : frame_on b
                      (deps <- mapM (Inversify.resolve depth 0) (Inversify.injections cls) ;;
                       a <- alloc ;; ret tt ;;; ret (Instance a cls deps)))
          by auto 10 with frame.
        destruct ca; exact H.
      * destruct Hs as [Hs | [o Hs]]; [discriminate | subst ca].
        apply frame_on_ret.
    + apply frame_on_raise.
Qed.

Lemma frame_on_get id : frame_on b (Inversify.get 0 id).
Proof.
  intros n. unfold Inversify.get, bind. rewrite deref_base.
  apply frame_on_resolve.
Qed.

Lemma frame_on_instantiate cls : frame_on b (Inversify.instantiate 0 cls).
Proof.
  unfold Inversify.instantiate. auto 10 using frame_on_get with frame.
Qed.

Lemma frame_on_as_Weapon o : frame_on b (Interfaces.hit (Dispatch.as_Weapon o)).
Proof.
  unfold Dispatch.as_Weapon.
  destruct (class_of o); cbn; unfold Dispatch.not_a_function, Katana.hit;
    auto with frame.
Qed.

Lemma frame_on_as_ThrowableWeapon o :
  frame_on b (Interfaces.throw (Dispatch.as_ThrowableWeapon o)).
Proof.
  unfold Dispatch.as_ThrowableWeapon.
  destruct (class_of o); cbn; unfold Dispatch.not_a_function, Shuriken.throw;
    auto with frame.
Qed.

Lemma frame_on_as_Warrior o :
  frame_on b (Interfaces.fight (Dispatch.as_Warrior o)) /\
  frame_on b (Interfaces.sneak (Dispatch.as_Warrior o)).
Proof.
  destruct o as [a cls inj].
  destruct cls; cbn; unfold Dispatch.not_a_function; auto with frame.
  destruct inj as [|k [|s [|? ?]]]; cbn; unfold Dispatch.not_a_function; auto with frame.
  unfold Ninja.fight, Ninja.sneak; cbn.
  split; [apply frame_on_as_Weapon | apply frame_on_as_ThrowableWeapon].
Qed.

Lemma frame_on_invoke o key : frame_on b (Dispatch.invoke o key).
Proof.
  destruct o as [a cls inj].
  destruct cls; cbn; unfold Dispatch.not_a_function, InitController.fight;
    auto with frame.
  - destruct inj as [|w [|? ?]]; auto with frame.
    repeat case_decide; auto with frame;
      unfold WarriorController.fight, WarriorController.sneak; cbn;
      apply frame_on_as_Warrior.
  - case_decide; auto with frame.
Qed.

Lemma frame_on_handle req : frame_on b (handle 0 req).
Proof.
  unfold handle. destruct (find (route_matches req) routes) as [r|];
    auto 10 using frame_on_instantiate, frame_on_invoke with frame.
Qed.

Lemma exec_on o n :
  exists n', n <= n' /\ exec o (set_fresh n b) = set_fresh n' b.
Proof.
  destruct o as [|id|req]; cbn [exec];
    change (DIContainer_container (set_fresh n b)) with (DIContainer_container b);
    try rewrite b_static.
  - exists n. split; [lia|].
    rewrite (resolveDependencies_again (set_fresh n b) 0 b_static). reflexivity.
  - exact (frame_on_get id n).
  - exact (frame_on_handle req n).
Qed.

Lemma run_on ops n :
  exists n', n <= n' /\ run ops (set_fresh n b) = set_fresh n' b.
Proof.
  revert n. induction ops as [|o ops IH]; intros n.
  - exists n. split; [lia | reflexivity].
  - destruct (exec_on o n) as (n1 & Hle & E).
    destruct (IH n1) as (n2 & Hle2 & E2).
    exists n2. split; [lia|]. cbn [run fold_left]. rewrite E. exact E2.
Qed.
End Frame.

Lemma registered_settled : settled registered.
Proof.
  intros id. destruct (registry_cases id) as [-> | (cls & ->)]; [exact I | now left].
Qed.



(** ** The states a process goes through *)

Lemma run_started ops n :
  exists n', n <= n' /\ run ops (set_fresh n started) = set_fresh n' started.
Proof. exact (run_on started registered eq_refl eq_refl registered_settled ops n). Qed.

Lemma run_app ops1 ops2 p : run (ops1 ++ ops2) p = run ops2 (run ops1 p).
Proof. apply fold_left_app. Qed.

Lemma run_init ops :
  run ops init = init \/ exists n, 1 <= n /\ run ops init = set_fresh n started.
Proof.
  induction ops as [|o ops IH].
  - now left.
  - destruct o as [|id|req]; [right | exact IH | exact IH].
    exact (run_started ops 1).
Qed.

Lemma run_resolved ops1 ops2 :
  exists n, 1 <= n /\ run (ops1 ++ Resolve :: ops2) init = set_fresh n started.
Proof.
  rewrite run_app. change (run (Resolve :: ops2) ?p) with (run ops2 (exec Resolve p)).
  destruct (run_init ops1) as [-> | (n & Hn & ->)].
  - exact (run_started ops2 1).
  - destruct (run_started ops2 n) as (n' & Hle & E). exists n'. split; [lia | exact E].
Qed.

Lemma run_Resolve ops :
  exists n, 1 <= n /\ run (Resolve :: ops) init = set_fresh n started.
Proof. exact (run_resolved [] ops). Qed.

(** The state that [createApp] leaves, and what follows it. *)

Lemma built_heap : heap built !! 0 = Some built_container.
Proof. reflexivity. Qed.

Lemma built_dictionary :
  bindingDictionary built_container =
    <[InversifyExpressServer.TYPE.Controller :=
        [transient InversifyExpressServer.TYPE.Controller InitControllerClass;
         transient InversifyExpressServer.TYPE.Controller WarriorControllerClass]]>
    (<[InversifyExpressServer.TYPE.HttpContext :=
        [{| serviceIdentifier := InversifyExpressServer.TYPE.HttpContext;
            implementationType := ObjectClass;
            scope := Singleton;
            cache := Some (Instance 1 ObjectClass []) |}]]>
     registry).
Proof. vm_compute. reflexivity. Qed.

Lemma built_settled : settled built_container.
Proof.
  intros id. unfold Inversify.bindings_for. rewrite built_dictionary.
  rewrite lookup_insert. case_decide; [exact I|].
  rewrite lookup_insert. case_decide; [right; eexists; reflexivity|].
  exact (registered_settled id).
Qed.

Lemma run_built ops :
  exists n, fresh built <= n /\ run ops built = set_fresh n built.
Proof.
  exact (run_on built built_container eq_refl built_heap built_settled ops (fresh built)).
Qed.

(** ** The route layer *)

(** C1. Whatever the process did since startup, GET /warrior/fight is
    answered with status 200 and the body [cut!]: the string that the
    Warrior returned, sent as it is, which is not the JSON object with the
    key "action". *)
Theorem GET_warrior_fight_sends_cut ops :
  answer (GET "/warrior/fight") (run (Resolve :: ops) init) =
    Some (Normal {| status := 200; body := "cut!" |}) /\
  "cut!" <> json_action "cut!".
Proof.
  destruct (run_Resolve ops) as (n & _ & ->). split; [reflexivity | discriminate].
Qed.

(** C2. Whatever the process did since startup, GET /warrior/sneak is
    answered with status 200 and the body [hit!]: the string that the
    Warrior returned, sent as it is, which is not the JSON object with the
    key "action". *)
Theorem GET_warrior_sneak_sends_hit ops :
  answer (GET "/warrior/sneak") (run (Resolve :: ops) init) =
    Some (Normal {| status := 200; body := "hit!" |}) /\
  "hit!" <> json_action "hit!".
Proof.
  destruct (run_Resolve ops) as (n & _ & ->). split; [reflexivity | discriminate].
Qed.


(** C9. WarriorController.fight() and sneak() are the injected Warrior's
    fight() and sneak(), result and effects alike, for any Warrior; and
    the body of the answer to each of the two routes is the very string
    that the Warrior resolved from the container returns. *)
Theorem WarriorController_returns_warrior_string_verbatim :
  (forall (S : Type) (w : Interfaces.Warrior S) (s : S),
      WarriorController.fight {| WarriorController.warrior := w |} s
        = Interfaces.fight w s /\
      WarriorController.sneak {| WarriorController.warrior := w |} s
        = Interfaces.sneak w s) /\
  (forall ops,
      let p := run (Resolve :: ops) init in
      exists w p1 v1 p2 v2 p3,
        Inversify.get 0 TYPES.Warrior p = (Normal w, p1) /\
        Interfaces.fight (Dispatch.as_Warrior w) p1 = (Normal v1, p2) /\
        Interfaces.sneak (Dispatch.as_Warrior w) p1 = (Normal v2, p3) /\
        answer (GET "/warrior/fight") p =
          Some (Normal {| status := 200; body := v1 |}) /\
        answer (GET "/warrior/sneak") p =
          Some (Normal {| status := 200; body := v2 |})).
Proof.
  split.
  - intros S w s. split; reflexivity.
  - intros ops p. subst p. destruct (run_Resolve ops) as (n & _ & ->).
    do 6 eexists. repeat split; reflexivity.
Qed.

(** C6. Ninja.fight() is hit() of the bound Weapon and Ninja.sneak() is
    throw() of the bound ThrowableWeapon: the same completion and the
    same effects in every state, called directly or through the Warrior
    interface. The Ninja adds no case distinction and no failure of its
    own: it returns the weapon's string when the weapon returns one. *)
Theorem Ninja_delegates_to_its_weapons (S : Type) (this : Ninja.t S) (s : S) :
  Interfaces.fight (Ninja.as_Warrior this) s = Interfaces.hit (Ninja._katana this) s /\
  Interfaces.sneak (Ninja.as_Warrior this) s = Interfaces.throw (Ninja._shuriken this) s /\
  Ninja.fight this s = Interfaces.hit (Ninja._katana this) s /\
  Ninja.sneak this s = Interfaces.throw (Ninja._shuriken this) s.
Proof. repeat split; reflexivity. Qed.

(** ** The registry *)

(** The scope decides whether instances are shared: in a container whose
    default scope is Singleton the second resolution returns the cached
    instance of the first. *)
Example singleton_scope_shares_the_instance :
  let p0 := set_fresh 1
              (set_heap {[ 0 := {| defaultScope := Singleton;
                                   bindingDictionary := ∅ |} ]} init) in
  let p1 := snd (Inversify.bind_to 0 TYPES.Weapon KatanaClass p0) in
  let r1 := Inversify.get 0 TYPES.Weapon p1 in
  let r2 := Inversify.get 0 TYPES.Weapon (snd r1) in
  fst r1 = Normal (Instance 1 KatanaClass []) /\ fst r2 = fst r1.
Proof. split; reflexivity. Qed.

Lemma bound_started n id :
  bound (set_fresh n started) id = Inversify.bindings_for registered id.
Proof. reflexivity. Qed.

Lemma bound_capability cap :
  Inversify.bindings_for registered (token cap) = [transient (token cap) (implementation cap)].
Proof. destruct cap; reflexivity. Qed.

Lemma get_capability cap n :
  exists o,
    Inversify.get 0 (token cap) (set_fresh n started)
      = (Normal o, set_fresh (S (addr_of o)) started) /\
    n <= addr_of o /\ class_of o = implementation cap.
Proof.
  destruct cap;
    [ exists (Instance (2 + n) NinjaClass
                [Instance n KatanaClass []; Instance (1 + n) ShurikenClass []])
    | exists (Instance n KatanaClass [])
    | exists (Instance n ShurikenClass []) ];
    (split; [reflexivity | cbn; split; [lia | reflexivity]]).
Qed.

(** C3. Once the registry exists, each capability has exactly one binding,
    to its implementation, and it stays so; every resolution of a
    capability succeeds with an instance of that implementation. The
    binding is in transient scope, though: two resolutions of the same
    capability return two distinct instances, never the same one. *)
Theorem resolutions_build_distinct_instances ops cap :
  let p := run (Resolve :: ops) init in
  DIContainer_container p = Some 0 /\
  bound p (token cap) = [transient (token cap) (implementation cap)] /\
  exists o1 p1 o2 p2,
    Inversify.get 0 (token cap) p = (Normal o1, p1) /\
    Inversify.get 0 (token cap) p1 = (Normal o2, p2) /\
    class_of o1 = implementation cap /\
    class_of o2 = implementation cap /\
    addr_of o1 <> addr_of o2.
Proof.
  intros p. subst p. destruct (run_Resolve ops) as (n & _ & ->).
  split; [reflexivity|]. split; [rewrite bound_started; apply bound_capability|].
  destruct (get_capability cap n) as (o1 & E1 & Hle1 & C1).
  destruct (get_capability cap (S (addr_of o1))) as (o2 & E2 & Hle2 & C2).
  exists o1, (set_fresh (S (addr_of o1)) started), o2, (set_fresh (S (addr_of o2)) started).
  repeat split; try assumption. lia.
Qed.

(** C4. The first call of resolveDependencies in a process constructs a
    container that was not there and populates it; in any state a repeated
    call returns the handle of the call before and changes nothing; and
    however the process goes on after the first call, a later call returns
    that first handle, leaves the state as it is, and finds the bindings of
    the first call. *)
Theorem resolveDependencies_idempotent :
  (heap init !! 0 = None /\
   DIContainer.resolveDependencies init = (Normal 0, started) /\
   heap started !! 0 = Some registered /\
   registerCalls init = 0 /\ registerCalls started = 1) /\
  (forall p, exists c,
      fst (DIContainer.resolveDependencies p) = Normal c /\
      DIContainer.resolveDependencies (snd (DIContainer.resolveDependencies p))
        = (Normal c, snd (DIContainer.resolveDependencies p))) /\
  (forall ops,
      let p := run (Resolve :: ops) init in
      DIContainer.resolveDependencies p = (Normal 0, p) /\
      heap p !! 0 = Some registered /\
      registerCalls p = 1 /\
      forall id, bound p id = bound started id).
Proof.
  split; [repeat split; reflexivity|]. split.
  - intros p. destruct (DIContainer_container p) as [c|] eqn:E.
    + exists c. rewrite (resolveDependencies_again p c E). cbn [fst snd].
      split; [reflexivity | exact (resolveDependencies_again p c E)].
    + exists (fresh p). rewrite (resolveDependencies_first p E). cbn [fst snd].
      split; [reflexivity | apply resolveDependencies_again; reflexivity].
  - intros ops p. subst p. destruct (run_Resolve ops) as (n & _ & ->).
    repeat split; reflexivity.
Qed.

(** C10, as the spec has it, fails: when [createApp] has returned, that
    is after the first resolution has completed and the framework has
    built the server on its handle, the container holds bindings that
    the first resolution did not leave there. *)
Lemma build_binds_after_the_first_resolution :
  DIContainer.resolveDependencies init = (Normal 0, started) /\
  InversifyExpressServer.build 0 started = (Normal 0, built) /\
  ~ (forall id, bound built id = bound started id).
Proof.
  split; [reflexivity|]. split; [vm_compute; reflexivity|].
  intros H. specialize (H InversifyExpressServer.TYPE.Controller).
  vm_compute in H. discriminate H.
Qed.

(** C10, amended. registerDependencies runs at most once in a process: a
    call of resolveDependencies that finds the static container set
    registers nothing and changes nothing, a call that finds it unset
    registers once, and over any run the count never exceeds one. So
    DIContainer adds, removes or rebinds nothing after the first
    resolution: its four bindings stay, each alone under its token,
    before the framework builds the server and after. The bindings that
    come later are the framework's: [createApp] ends with the HttpContext
    and Controller identifiers bound as well, and from then on
    resolutions and requests leave every identifier as they find it. *)
Theorem DIContainer_binds_only_in_the_first_resolution :
  (forall ops, registerCalls (run ops init) <= 1) /\
  (forall p c,
      DIContainer.resolveDependencies (set_DIContainer_container (Some c) p)
        = (Normal c, set_DIContainer_container (Some c) p)) /\
  (forall p,
      registerCalls (snd (DIContainer.resolveDependencies
                            (set_DIContainer_container None p)))
        = S (registerCalls p)) /\
  (forall ops1 ops2,
      let p := run (ops1 ++ Resolve :: ops2)%list init in
      registerCalls p = 1 /\
      DIContainer_container p = Some 0 /\
      DIContainer_bindings p) /\
  createApp InversifyExpressServer.build init = (Normal 0, built) /\
  (forall ops,
      let p := run ops built in
      registerCalls p = 1 /\
      DIContainer_container p = Some 0 /\
      DIContainer_bindings p /\
      DIContainer.resolveDependencies p = (Normal 0, p) /\
      forall id, bound p id = bound built id).
Proof.
  split; [|split; [|split; [|split; [|split]]]].
  - intros ops.
    destruct (run_init ops) as [-> | (n & _ & ->)];
      [change (0 <= 1) | change (1 <= 1)]; lia.
  - intros p c. apply resolveDependencies_again. reflexivity.
  - intros p. rewrite resolveDependencies_first by reflexivity. reflexivity.
  - intros ops1 ops2 p. subst p. destruct (run_resolved ops1 ops2) as (n & _ & ->).
    repeat split; reflexivity.
  - vm_compute. reflexivity.
  - intros ops p. subst p. destruct (run_built ops) as (n & _ & ->).
    split; [reflexivity|]. split; [reflexivity|].
    split; [repeat split; reflexivity|].
    split; [apply resolveDependencies_again; reflexivity | reflexivity].
Qed.

(** C5, as the spec has it, fails: after the first call an identifier
    other than the three capability tokens is bound too. *)
Lemma registry_binds_the_controller_too :
  ~ (forall id,
        bound started id <> [] ->
        id = TYPES.Warrior \/ id = TYPES.Weapon \/ id = TYPES.ThrowableWeapon).
Proof.
  intros H. destruct (H TYPES.WarriorController) as [E | [E | E]];
    [discriminate | discriminate E .. ].
Qed.

(** C5, amended. The first call of resolveDependencies registers exactly
    four bindings and no others: Warrior to Ninja, Weapon to Katana,
    ThrowableWeapon to Shuriken, and WarriorController to the
    WarriorController class; one binding under each identifier. *)
Theorem first_resolution_registers_four_bindings :
  DIContainer.resolveDependencies init = (Normal 0, started) /\
  heap init = ∅ /\
  size (bindingDictionary registered) = 4 /\
  heap started !! 0 = Some registered /\
  forall id,
    bound started id =
      if decide (id = TYPES.Warrior) then [transient id NinjaClass]
      else if decide (id = TYPES.Weapon) then [transient id KatanaClass]
      else if decide (id = TYPES.ThrowableWeapon) then [transient id ShurikenClass]
      else if decide (id = TYPES.WarriorController)
           then [transient id WarriorControllerClass]
      else [].
Proof.
  repeat split; try reflexivity.
  intros id. change (bound started id) with (Inversify.bindings_for registered id).
  unfold Inversify.bindings_for, registered, registry; cbn [bindingDictionary].
  repeat case_decide; subst; try reflexivity.
  rewrite !lookup_insert_ne by congruence. now rewrite lookup_empty.
Qed.

(** ** Startup *)

Lemma length_app (a e : string) :
  String.length (a +:+ e) = String.length a + String.length e.
Proof. induction a as [|x a IH]; simpl; [reflexivity | now f_equal]. Qed.

Lemma console_error_line_differs (e : string) :
  e <> "Error starting server: " +:+ e.
Proof.
  intros H. apply (f_equal String.length) in H. rewrite length_app in H.
  cbn in H. lia.
Qed.

(** C7. An error thrown while the app is created, or thrown by the call
    of listen itself, is caught by the entry point: it is written with
    console.error and then the process exits with code 1. A failure to
    bind the port is not thrown by that call; it is reported afterwards,
    as an 'error' event, where the try block is no longer around it: the
    catch block does not run, console.error writes nothing, and the
    process ends by the uncaught error, with exit code 1. When the port
    is bound the callback runs and no exit code is set. The request
    handlers do not fail: in every state after startup each registered
    route is answered with status 200, never through the error
    handler. *)
Theorem bind_failure_escapes_the_catch
    (Application : Type) (build : nat -> M Process Application)
    (listen_call : Application -> nat -> M Process unit) (p : Process) :
  (forall e p' event,
      startup_throws build (app_listen listen_call) p e p' ->
      start build listen_call event p =
        set_exitCode (Some 1)
          (set_stderr (stderr p' ++ ["Error starting server: " +:+ e])%list p')) /\
  (forall app p1 p2 e,
      createApp build p = (Normal app, p1) ->
      listen_call app PORT p1 = (Normal tt, p2) ->
      start build listen_call (ListenError e) p =
        set_exitCode (Some 1) (set_stderr (stderr p2 ++ [e])%list p2) /\
      e <> "Error starting server: " +:+ e /\
      start build listen_call Listening p =
        set_stdout (stdout p2 ++ ["Server is running on http://localhost:3000"])%list p2) /\
  (forall ops,
      Forall (fun r =>
                exists resp,
                  answer {| method := route_method r; url := route_path r |}
                         (run (Resolve :: ops) init) = Some (Normal resp) /\
                  status resp = 200)
             routes).
Proof.
  split; [|split].
  - intros e p' event H. unfold start, main, try_catch, bind.
    destruct H as [H | (app & p1 & H1 & H2)].
    + rewrite H. reflexivity.
    + rewrite H1. unfold app_listen in H2 |- *. rewrite H2. reflexivity.
  - intros app p1 p2 e H1 H2.
    assert (E : main build (app_listen listen_call) p = (Normal tt, p2)).
    { unfold main, try_catch, bind, app_listen. now rewrite H1, H2. }
    unfold start. rewrite E.
    split; [reflexivity|]. split; [apply console_error_line_differs | reflexivity].
  - intros ops. destruct (run_Resolve ops) as (n & _ & ->).
    repeat constructor; eexists; (split; [reflexivity | reflexivity]).
Qed.

(** The port is taken: the app is built, listen returns, the bind
    fails. *)
Lemma port_in_use_ends_the_process_uncaught :
  createApp InversifyExpressServer.build init = (Normal 0, built) /\
  start InversifyExpressServer.build (fun _ _ => ret tt)
    (ListenError "listen EADDRINUSE: address already in use :::3000") init =
    set_exitCode (Some 1)
      (set_stderr ["listen EADDRINUSE: address already in use :::3000"] built).
Proof.
  assert (H : createApp InversifyExpressServer.build init = (Normal 0, built))
    by (vm_compute; reflexivity).
  split; [exact H|].
  exact (proj1 (proj1 (proj2 (bind_failure_escapes_the_catch
                                nat InversifyExpressServer.build (fun _ _ => ret tt) init))
                      0 built built
                      "listen EADDRINUSE: address already in use :::3000"
                      H eq_refl)).
Defined.

(** * Further properties of the code *)

(** ** DIContainer *)

(** X1. In any state, resolveDependencies writes nothing to the console,
    leaves the exit status alone and touches no container but the one it
    may create at the next free address; it allocates at most one address
    and runs registerDependencies at most once. *)
Theorem resolveDependencies_footprint p :
  let p' := snd (DIContainer.resolveDependencies p) in
  stdout p' = stdout p /\
  stderr p' = stderr p /\
  exitCode p' = exitCode p /\
  delete (fresh p) (heap p') = delete (fresh p) (heap p) /\
  fresh p <= fresh p' <= S (fresh p) /\
  registerCalls p <= registerCalls p' <= S (registerCalls p).
Proof.
  intros p'. subst p'. destruct (DIContainer_container p) as [c|] eqn:E.
  - rewrite (resolveDependencies_again p c E). cbn [snd].
    repeat split; try reflexivity; lia.
  - rewrite (resolveDependencies_first p E). cbn.
    repeat split; try reflexivity; try lia. apply delete_insert_eq.
Qed.

(** X2. The guard of resolveDependencies is what keeps the registry
    usable: were registerDependencies to run a second time on the
    container of a started process, it would return normally, every
    capability would hold two bindings, resolving it would throw the
    ambiguous-match error and construct nothing, and the two warrior
    routes would be answered by the error handler with status 500. *)
Theorem registering_twice_makes_resolution_ambiguous ops cap :
  let p := run (Resolve :: ops) init in
  let q := snd (DIContainer.registerDependencies p) in
  fst (DIContainer.registerDependencies p) = Normal tt /\
  bound q (token cap) =
    [transient (token cap) (implementation cap);
     transient (token cap) (implementation cap)] /\
  Inversify.get 0 (token cap) q =
    (Throw "Ambiguous match found for serviceIdentifier", q) /\
  (exists r1 r2,
      answer (GET "/warrior/fight") q = Some (Normal r1) /\ status r1 = 500 /\
      answer (GET "/warrior/sneak") q = Some (Normal r2) /\ status r2 = 500).
Proof.
  intros p q. subst q p. destruct (run_Resolve ops) as (n & _ & ->).
  split; [reflexivity|].
  split; [destruct cap; reflexivity|].
  split; [destruct cap; vm_compute; reflexivity|].
  do 2 eexists. vm_compute. repeat split.
Qed.

(** X4. The Warrior that the registry resolves is a Ninja holding a Katana
    as its weapon and a Shuriken as its throwable weapon, all three built
    for this resolution at addresses not used before; in whatever state
    it is called, its fight() returns "cut!" and its sneak() returns
    "hit!" and neither changes the state. *)
Theorem resolved_Warrior_is_a_wired_Ninja ops :
  let p := run (Resolve :: ops) init in
  exists a ak ash p1,
    Inversify.get 0 TYPES.Warrior p =
      (Normal (Instance a NinjaClass
                 [Instance ak KatanaClass []; Instance ash ShurikenClass []]), p1) /\
    fresh p <= ak /\ ak < ash /\ ash < a /\ a < fresh p1 /\
    forall q,
      Interfaces.fight
        (Dispatch.as_Warrior
           (Instance a NinjaClass
              [Instance ak KatanaClass []; Instance ash ShurikenClass []])) q
        = (Normal "cut!", q) /\
      Interfaces.sneak
        (Dispatch.as_Warrior
           (Instance a NinjaClass
              [Instance ak KatanaClass []; Instance ash ShurikenClass []])) q
        = (Normal "hit!", q).
Proof.
  intros p. subst p. destruct (run_Resolve ops) as (n & _ & ->).
  exists (2 + n), n, (1 + n), (set_fresh (3 + n) started).
  split; [reflexivity|]. cbn [fresh set_fresh].
  repeat split; try lia.
Qed.

(** X5. The binding of the WarriorController token works: resolving it
    yields a WarriorController built around a newly resolved Warrior, and
    on that controller fight() returns "cut!" and sneak() returns "hit!",
    in any state and without changing it. *)
Theorem resolved_WarriorController_fights_and_sneaks ops :
  let p := run (Resolve :: ops) init in
  exists o w p1,
    Inversify.get 0 TYPES.WarriorController p = (Normal o, p1) /\
    o = Instance (addr_of o) WarriorControllerClass [w] /\
    class_of w = NinjaClass /\
    fresh p <= addr_of w /\ addr_of w < addr_of o /\ addr_of o < fresh p1 /\
    forall q,
      Dispatch.invoke o "fight" q = (Normal "cut!", q) /\
      Dispatch.invoke o "sneak" q = (Normal "hit!", q).
Proof.
  intros p. subst p. destruct (run_Resolve ops) as (n & _ & ->).
  exists (Instance (3 + n) WarriorControllerClass
            [Instance (2 + n) NinjaClass
               [Instance n KatanaClass []; Instance (1 + n) ShurikenClass []]]),
         (Instance (2 + n) NinjaClass
            [Instance n KatanaClass []; Instance (1 + n) ShurikenClass []]),
         (set_fresh (4 + n) started).
  split; [reflexivity|]. cbn [addr_of class_of fresh set_fresh].
  repeat split; try lia.
Qed.



(** X8. Once resolveDependencies has been called, further calls of it
    are unobservable: a run with one more call anywhere later ends in the
    same state as the run without it. *)
Theorem later_resolutions_are_unobservable ops1 ops2 :
  run (Resolve :: ops1 ++ Resolve :: ops2)%list init =
  run (Resolve :: ops1 ++ ops2)%list init.
Proof.
  rewrite !app_comm_cons, !run_app.
  destruct (run_Resolve ops1) as (n & _ & ->).
  reflexivity.
Qed.

(** ** app.ts and index.ts *)

(** X9. createApp adds no failure of its own: in any state it obtains a
    handle from resolveDependencies and its outcome is that of the
    framework's build on that handle. When build leaves the static
    container alone, a second createApp hands build the same handle in
    the very state the first build left: nothing is registered again. *)
Theorem createApp_reuses_the_container
    (Application : Type) (build : nat -> M Process Application) (p : Process) :
  exists c p0,
    DIContainer.resolveDependencies p = (Normal c, p0) /\
    DIContainer_container p0 = Some c /\
    createApp build p = build c p0 /\
    ((forall c' q, DIContainer_container (snd (build c' q)) = DIContainer_container q) ->
     createApp build (snd (build c p0)) = build c (snd (build c p0))).
Proof.
  assert (H : exists c p0,
             DIContainer.resolveDependencies p = (Normal c, p0) /\
             DIContainer_container p0 = Some c).
  { destruct (DIContainer_container p) as [c|] eqn:E.
    - exists c, p. split; [exact (resolveDependencies_again p c E) | exact E].
    - eexists _, _. split; [exact (resolveDependencies_first p E) | reflexivity]. }
  destruct H as (c & p0 & E & Hc). exists c, p0.
  split; [exact E|]. split; [exact Hc|]. split.
  - unfold createApp, bind. now rewrite E.
  - intros Hb. unfold createApp, bind.
    rewrite (resolveDependencies_again (snd (build c p0)) c); [reflexivity|].
    now rewrite Hb.
Qed.

Lemma createApp_twice_with_a_plain_build :
  (forall (c' : nat) (q : Process),
      DIContainer_container (snd (ret (S := Process) tt q)) = DIContainer_container q) /\
  createApp (fun _ => ret tt) started = (Normal tt, started).
Proof.
  assert (H : forall (c' : nat) (q : Process),
             DIContainer_container (snd (ret (S := Process) tt q)) = DIContainer_container q)
    by (intros; reflexivity).
  split; [exact H|].
  destruct (createApp_reuses_the_container unit (fun _ => ret tt) init)
    as (c & p0 & E & _ & _ & Hre).
  injection E as <- <-. exact (Hre H).
Defined.

(** X10. When the app is created and the listener, after whatever it does
    itself, runs the callback it was given, the entry point writes the
    line "Server is running on http://localhost:3000" to the standard
    output, after what was there; it writes no error and sets no exit
    code. *)
Theorem main_announces_the_port
    (Application : Type) (build : nat -> M Process Application)
    (bind_port : Application -> nat -> M Process unit)
    (p : Process) (app : Application) (p1 p2 : Process) :
  createApp build p = (Normal app, p1) ->
  bind_port app 3000 p1 = (Normal tt, p2) ->
  main build (fun a port callback => bind_port a port ;;; callback) p =
    (Normal tt,
     set_stdout (stdout p2 ++ ["Server is running on http://localhost:3000"])%list p2).
Proof.
  intros H1 H2. unfold main, try_catch, bind. rewrite H1.
  change PORT with 3000. rewrite H2. reflexivity.
Qed.

Lemma main_announces_on_a_fresh_process :
  main (fun _ => ret tt) (fun _ _ callback => ret tt ;;; callback) init =
    (Normal tt,
     set_stdout ["Server is running on http://localhost:3000"] started).
Proof.
  exact (main_announces_the_port unit (fun _ => ret tt) (fun _ _ => ret tt)
           init tt started started eq_refl eq_refl).
Defined.
